(** * The service template: [src/terraform/templates/service/src/app.py]

    A FastAPI application with two path operations, [root] on [/] and
    [health] on [/health].  The development has four layers:

    - Python values the program handles: text, dictionaries, exceptions,
      and the state of the process ([os.environ] and the one mutable
      attribute of the application object);
    - [os.getenv];
    - the part of FastAPI (and of Starlette, on which it is built) that the
      program calls: the application constructor, the [get] decorator, the
      router and the responses;
    - the module itself: [app], [root], [health]. *)

From Stdlib Require Import Strings.String Strings.Ascii Strings.Byte NArith List.
From stdpp Require Import base option list countable gmap.

Local Open Scope N_scope.

(** ** Python text

    A Python [str] is a sequence of Unicode code points.  Text read from the
    process environment is decoded with the [surrogateescape] error handler:
    a byte that is not valid in the encoding becomes a lone surrogate code
    point (U+DC80 to U+DCFF), so such values exist and are ordinary [str]
    objects until something encodes them. *)

Inductive str := Str (codepoints : list N).

Definition codepoints (s : str) : list N := let 'Str l := s in l.

(** String literals of this file denote [str]; only ASCII literals are
    accepted, one code point per character. *)
Definition str_of_bytes (bs : list Byte.byte) : option str :=
  Str <$> mapM (fun b => let n := Byte.to_N b in
                         if n <? 128 then Some n else None) bs.

Definition bytes_of_str (s : str) : option (list Byte.byte) :=
  mapM (fun n => if n <? 128 then Byte.of_N n else None) (codepoints s).

Declare Scope str_scope.
Delimit Scope str_scope with str.
Bind Scope str_scope with str.
String Notation str str_of_bytes bytes_of_str : str_scope.
Local Open Scope str_scope.

Global Instance str_eq_dec : EqDecision str.
Proof. solve_decision. Defined.

Global Instance str_countable : Countable str.
Proof. apply (inj_countable' codepoints Str). by intros []. Defined.

(** [a + b] on text. *)
Definition str_add (a b : str) : str := Str (codepoints a ++ codepoints b).

(** [s.endswith("/")] *)
Definition endswith_slash (s : str) : bool :=
  match last (codepoints s) with
  | Some c => c =? 47
  | None => false
  end.

(** [s.rstrip("/")]: every trailing slash is removed. *)
Fixpoint rstrip_slash_codepoints (l : list N) : list N :=
  match l with
  | [] => []
  | c :: l' =>
      match rstrip_slash_codepoints l' with
      | [] => if c =? 47 then [] else [c]
      | r => c :: r
      end
  end.

Definition rstrip_slash (s : str) : str :=
  Str (rstrip_slash_codepoints (codepoints s)).

(** The UTF-8 codec encodes every code point except the surrogates
    (U+D800 to U+DFFF), on which [s.encode("utf-8")] raises
    [UnicodeEncodeError]. *)
Definition is_surrogate (c : N) : bool := (0xD800 <=? c) && (c <=? 0xDFFF).

Definition utf8_encodable (s : str) : bool :=
  forallb (fun c => negb (is_surrogate c)) (codepoints s).

(** ** Dictionaries

    The dictionaries of this program map text to text.  A Python [dict]
    keeps its keys in insertion order, and that order is the order of the
    fields in the JSON text of a response, so a dictionary is the list of
    its items. *)

Definition dict : Type := list (str * str).

(** [d[k] = v]: the value of an existing key is replaced in place, a new
    key goes to the end. *)
Fixpoint dict_setitem (k v : str) (d : dict) : dict :=
  match d with
  | [] => [(k, v)]
  | (k', v') :: d' =>
      if bool_decide (k' = k) then (k, v) :: d'
      else (k', v') :: dict_setitem k v d'
  end.

(** A dictionary display [{k1: v1, ..., kn: vn}] inserts its items from
    left to right into a new dictionary. *)
Definition dict_display (items : list (str * str)) : dict :=
  fold_left (fun d kv => dict_setitem kv.1 kv.2 d) items [].

(** [d.get(k)] *)
Definition dict_get (k : str) (d : dict) : option str :=
  snd <$> find (fun kv => bool_decide (kv.1 = k)) d.

(** ** Exceptions and the state of the process *)

Inductive exn :=
  | UnicodeEncodeError
  | HTTPException (status_code : N) (detail : str).

(** The OpenAPI document FastAPI derives from an application, reduced to
    the parts that depend on the application: its title and version and the
    paths of its path operations. *)
Record OpenAPI := {
  info_title : str;
  info_version : str;
  paths : list str
}.

(** What the program can observe and change: the mapping [os.environ], and
    the attribute [app.openapi_schema] in which the application object
    caches its OpenAPI document ([None] until it is first generated).  The
    routes of [app] are fixed once the module is imported and are not part
    of the state. *)
Record World := {
  environ : gmap str str;
  openapi_schema : option OpenAPI
}.

(** A computation runs in a state, ends by returning a value or by raising
    an exception, and leaves a state; what it changed before raising stays
    changed. *)
Inductive outcome (A : Type) :=
  | Return (a : A)
  | Raise (e : exn).
Arguments Return {A} a.
Arguments Raise {A} e.

Definition M (A : Type) : Type := World -> outcome A * World.

Global Instance M_ret : MRet M := fun A a w => (Return a, w).

Global Instance M_bind : MBind M := fun A B k c w =>
  match c w with
  | (Return a, w') => k a w'
  | (Raise e, w') => (Raise e, w')
  end.

Definition raise {A : Type} (e : exn) : M A := fun w => (Raise e, w).

(** ** [os] *)

Module os.

(** [os.getenv(key, default)] is [os.environ.get(key, default)]: the value
    bound to [key] in the mapping at the time of the call, [default] when
    [key] is not bound.  It raises nothing and changes nothing. *)
Definition getenv (key default : str) : M str :=
  fun w => (Return (from_option id default (environ w !! key)), w).

End os.

(** ** [fastapi]

    The behaviour of the framework that [app.py] relies on, for GET
    requests: every route of the application accepts GET, and a GET request
    is represented by its path.  Starlette supplies the responses, the
    matching of paths and the router; FastAPI supplies the application
    class, its built-in documentation routes and the path operations. *)

Module fastapi.

(** *** Responses *)

(** The HTML pages of the interactive documentation, reduced to what
    depends on the application. *)
Inductive Page :=
  | SwaggerUI (title : str)
  | SwaggerUIOAuth2Redirect
  | ReDoc (title : str).

Inductive Content :=
  | JsonObject (d : dict)
  | JsonOpenAPI (schema : OpenAPI)
  | Html (page : Page)
  | PlainText (text : str)
  | NoContent.

(** [URL(scope=...)]: the URL that a request scope stands for.  Its scheme,
    host and query string are those of the request, which this model does
    not represent; its path is the path of the scope.  A [location] header
    carries such a URL written out in full and percent-quoted. *)
Inductive URL := URL_of_scope (path : str).

Record Response := {
  status_code : N;
  media_type : option str;
  location : option URL;
  content : Content
}.

Fixpoint startswith_codepoints (prefix l : list N) : bool :=
  match prefix, l with
  | [], _ => true
  | c :: prefix', c' :: l' => (c =? c') && startswith_codepoints prefix' l'
  | _ :: _, [] => false
  end.

(** The [content-type] header [Response.init_headers] sends: the media
    type, with the charset appended when it is a [text/] type. *)
Definition content_type (r : Response) : option str :=
  match media_type r with
  | Some m =>
      if startswith_codepoints (codepoints "text/") (codepoints m)
      then Some (str_add m "; charset=utf-8")
      else Some m
  | None => None
  end.

(** A response renders its content to bytes when it is created, and the
    last step of every [render] is [.encode("utf-8")] ([JSONResponse] dumps
    with [ensure_ascii=False], so the text of the content reaches the codec
    unescaped).  Rendering succeeds exactly when every text in the content
    is encodable. *)
Definition dict_encodable (d : dict) : bool :=
  forallb (fun kv => utf8_encodable kv.1 && utf8_encodable kv.2) d.

Definition renderable (c : Content) : bool :=
  match c with
  | JsonObject d => dict_encodable d
  | JsonOpenAPI s =>
      utf8_encodable (info_title s) && utf8_encodable (info_version s)
      && forallb utf8_encodable (paths s)
  | Html (SwaggerUI t) | Html (ReDoc t) => utf8_encodable t
  | Html SwaggerUIOAuth2Redirect => true
  | PlainText t => utf8_encodable t
  | NoContent => true
  end.

Definition Response_init (c : Content) (status : N) (media : option str)
  : M Response :=
  if renderable c
  then mret {| status_code := status; media_type := media;
               location := None; content := c |}
  else raise UnicodeEncodeError.

(** [JSONResponse(content, status_code=200)] and
    [HTMLResponse(content, status_code=200)]. *)
Definition JSONResponse (c : Content) (status : N) : M Response :=
  Response_init c status (Some "application/json").

Definition HTMLResponse (c : Content) (status : N) : M Response :=
  Response_init c status (Some "text/html").

(** [RedirectResponse(url)]: status 307, no content, the target in the
    [location] header. *)
Definition RedirectResponse (url : URL) : Response :=
  {| status_code := 307; media_type := None;
     location := Some url; content := NoContent |}.

(** *** Routes *)

(** The endpoints that [FastAPI.setup] defines as closures over the
    application. *)
Inductive SetupEndpoint :=
  | openapi
  | swagger_ui_html
  | swagger_ui_redirect
  | redoc_html.

(** A route is either a plain Starlette [Route], whose endpoint builds the
    response itself, or a FastAPI [APIRoute], whose endpoint is a path
    operation function: FastAPI turns what it returns into a response.
    [status_code] is the decorator's argument of that name, [None] by
    default. *)
Inductive BaseRoute :=
  | Route (path : str) (endpoint : SetupEndpoint)
  | APIRoute (path : str) (endpoint : M dict) (status_code : option N).

Definition route_path (r : BaseRoute) : str :=
  match r with
  | Route p _ => p
  | APIRoute p _ _ => p
  end.

Definition LF : str := Str [10].

(** [compile_path] turns a path without [{parameter}] into the regular
    expression [^] escaped-path [$], and [Route.matches] applies it with
    [re.match].  In Python [$] matches at the end of the text and also just
    before a line feed that ends the text. *)
Definition path_regex_match (route_path path : str) : bool :=
  bool_decide (path = route_path)
  || bool_decide (path = str_add route_path LF).

(** *** The application *)

Record Application := {
  title : str;
  version : str;
  openapi_url : option str;
  docs_url : option str;
  redoc_url : option str;
  swagger_ui_oauth2_redirect_url : option str;
  redirect_slashes : bool;
  routes : list BaseRoute
}.

(** [self.router.routes.append(route)] *)
Definition add_route (self : Application) (r : BaseRoute) : Application :=
  {| title := title self; version := version self;
     openapi_url := openapi_url self; docs_url := docs_url self;
     redoc_url := redoc_url self;
     swagger_ui_oauth2_redirect_url := swagger_ui_oauth2_redirect_url self;
     redirect_slashes := redirect_slashes self;
     routes := routes self ++ [r] |}.

(** [FastAPI.setup], called at the end of the constructor: the routes of
    the OpenAPI document and of the documentation pages, each under the
    condition the method tests. *)
Definition setup (self : Application) : Application :=
  let self :=
    match openapi_url self with
    | Some u => add_route self (Route u openapi)
    | None => self
    end in
  let self :=
    match openapi_url self, docs_url self with
    | Some _, Some d =>
        let self := add_route self (Route d swagger_ui_html) in
        match swagger_ui_oauth2_redirect_url self with
        | Some r => add_route self (Route r swagger_ui_redirect)
        | None => self
        end
    | _, _ => self
    end in
  match openapi_url self, redoc_url self with
  | Some _, Some r => add_route self (Route r redoc_html)
  | _, _ => self
  end.

(** [FastAPI(title=...)]: every other argument keeps its default. *)
Definition FastAPI (title : str) : Application :=
  setup {| title := title; version := "0.1.0";
           openapi_url := Some "/openapi.json";
           docs_url := Some "/docs";
           redoc_url := Some "/redoc";
           swagger_ui_oauth2_redirect_url := Some "/docs/oauth2-redirect";
           redirect_slashes := true;
           routes := [] |}.

(** [@self.get(path)] applied to [func]: an [APIRoute] for GET is appended,
    and the decorator gives [func] back unchanged. *)
Definition get (self : Application) (path : str) (func : M dict)
  : Application :=
  add_route self (APIRoute path func None).

(** [get_openapi]: only path operations appear in the document. *)
Definition get_openapi (self : Application) : OpenAPI :=
  {| info_title := title self;
     info_version := version self;
     paths := omap (fun r => match r with
                             | APIRoute p _ _ => Some p
                             | Route _ _ => None
                             end) (routes self) |}.

(** [FastAPI.openapi]: the document is generated on the first call and
    kept in [self.openapi_schema]. *)
Definition FastAPI_openapi (self : Application) : M OpenAPI :=
  fun w =>
    match openapi_schema w with
    | Some s => (Return s, w)
    | None =>
        let s := get_openapi self in
        (Return s, {| environ := environ w; openapi_schema := Some s |})
    end.

Definition run_setup_endpoint (self : Application) (e : SetupEndpoint)
  : M Response :=
  match e with
  | openapi =>
      s ← FastAPI_openapi self;
      JSONResponse (JsonOpenAPI s) 200
  | swagger_ui_html =>
      HTMLResponse (Html (SwaggerUI (str_add (title self) " - Swagger UI"))) 200
  | swagger_ui_redirect =>
      HTMLResponse (Html SwaggerUIOAuth2Redirect) 200
  | redoc_html =>
      HTMLResponse (Html (ReDoc (str_add (title self) " - ReDoc"))) 200
  end.

(** [route.handle]: a path operation is awaited and its return value is
    given to the response class, [JSONResponse] by default, with the
    route's status code, or the class's own default 200 when the route has
    none. *)
Definition handle (self : Application) (r : BaseRoute) : M Response :=
  match r with
  | Route _ e => run_setup_endpoint self e
  | APIRoute _ func status =>
      raw_response ← func;
      JSONResponse (JsonObject raw_response) (from_option id 200 status)
  end.

(** *** The router *)

Definition redirect_path (path : str) : str :=
  if endswith_slash path then rstrip_slash path else str_add path "/".

Definition matches_some_route (self : Application) (path : str) : bool :=
  existsb (fun r => path_regex_match (route_path r) path) (routes self).

(** [Router.app]: the first route that matches handles the request; when
    none does, [redirect_slashes] is set and the path is not [/], a route
    matching the path with its trailing slash toggled earns a redirect; all
    that is left is [not_found], which raises [HTTPException(404)].  The
    redirect goes to [URL(scope=redirect_scope)], the scope of the request
    with the toggled path. *)
Definition Router_app (self : Application) (path : str) : M Response :=
  match find (fun r => path_regex_match (route_path r) path) (routes self) with
  | Some r => handle self r
  | None =>
      if redirect_slashes self && negb (bool_decide (path = "/"))
         && matches_some_route self (redirect_path path)
      then mret (RedirectResponse (URL_of_scope (redirect_path path)))
      else raise (HTTPException 404 "Not Found")
  end.

(** An [HTTPException] reaches FastAPI's [http_exception_handler], which
    answers with the exception's status and its detail as JSON (the only
    status raised here is 404, which allows a body); any other exception
    reaches [ServerErrorMiddleware], which answers 500 in plain text. *)
Definition exception_response (e : exn) : Response :=
  match e with
  | HTTPException status detail =>
      {| status_code := status; media_type := Some "application/json";
         location := None; content := JsonObject [("detail", detail)] |}
  | UnicodeEncodeError =>
      {| status_code := 500; media_type := Some "text/plain";
         location := None; content := PlainText "Internal Server Error" |}
  end.

(** The application called on a GET request for [path]. *)
Definition call (self : Application) (path : str) (w : World)
  : Response * World :=
  match Router_app self path w with
  | (Return r, w') => (r, w')
  | (Raise e, w') => (exception_response e, w')
  end.

End fastapi.

(** ** [app.py] *)

(** [[
async def root():
    return {
        "service": "SERVICE_NAME",
        "status": "running",
        "environment": os.getenv("ENVIRONMENT", "production")
    }
]]
    The coroutine awaits nothing: once started it runs to its [return]. *)
Definition root : M dict :=
  environment ← os.getenv "ENVIRONMENT" "production";
  mret (dict_display [("service", "SERVICE_NAME");
                      ("status", "running");
                      ("environment", environment)]).

(** [[
async def health():
    return {"status": "healthy"}
]] *)
Definition health : M dict :=
  mret (dict_display [("status", "healthy")]).

(** [[
app = FastAPI(title="SERVICE_NAME")
@app.get("/")      (on root)
@app.get("/health")      (on health)
]]
    [app] is the application object as the import of the module leaves it. *)
Definition app : fastapi.Application :=
  let app := fastapi.FastAPI "SERVICE_NAME" in
  let app := fastapi.get app "/" root in
  fastapi.get app "/health" health.

(** ** Requests over time

    Between two requests the surroundings of the program may rebind or
    unbind variables in [os.environ]; the event loop runs one handler
    coroutine at a time.  A run is a list of such events, and gives the
    outcomes of the handlers in order. *)

Inductive event :=
  | EnvironChange (f : gmap str str -> gmap str str)
  | Await (handler : M dict).

Fixpoint run (events : list event) (w : World)
  : list (outcome dict) * World :=
  match events with
  | [] => ([], w)
  | EnvironChange f :: rest =>
      run rest {| environ := f (environ w);
                  openapi_schema := openapi_schema w |}
  | Await handler :: rest =>
      let '(o, w') := handler w in
      let '(outcomes, w'') := run rest w' in
      (o :: outcomes, w'')
  end.

(** What the environment changes of a run, taken alone, make of a mapping,
    and the runs whose requests are all for the two handlers of the
    module. *)
Definition environ_after (events : list event) (env : gmap str str)
  : gmap str str :=
  fold_left (fun env e => match e with
                          | EnvironChange f => f env
                          | Await _ => env
                          end) events env.

Definition awaits_module_handlers (events : list event) : Prop :=
  Forall (fun e => match e with
                   | EnvironChange _ => True
                   | Await handler => handler = root \/ handler = health
                   end) events.

(** The same at the level of the application: an event is a change of
    [os.environ] or a GET request for a path, and a run gives the responses
    in order. *)
Inductive request_event :=
  | EnvironChanged (f : gmap str str -> gmap str str)
  | Get (path : str).

Fixpoint serve (events : list request_event) (w : World)
  : list fastapi.Response * World :=
  match events with
  | [] => ([], w)
  | EnvironChanged f :: rest =>
      serve rest {| environ := f (environ w);
                    openapi_schema := openapi_schema w |}
  | Get path :: rest =>
      let '(r, w') := fastapi.call app path w in
      let '(responses, w'') := serve rest w' in
      (r :: responses, w'')
  end.

(** A field of the JSON object a response carries; a response with any
    other content has no fields. *)
Definition response_field (k : str) (r : fastapi.Response) : option str :=
  match fastapi.content r with
  | fastapi.JsonObject d => dict_get k d
  | _ => None
  end.

(** Some states to evaluate the program in. *)

Definition unset_world : World :=
  {| environ := ∅; openapi_schema := None |}.

Definition staging_world : World :=
  {| environ := <["ENVIRONMENT" := "staging"]> ∅;
     openapi_schema := None |}.


(** [ENVIRONMENT] bound to the text that the byte 0xFF decodes to. *)
Definition escaped_byte_world : World :=
  {| environ := <["ENVIRONMENT" := Str [0xDCFF]]> ∅;
     openapi_schema := None |}.

(** The state after the OpenAPI document has been requested once. *)
Definition documented_world : World :=
  {| environ := <["ENVIRONMENT" := "staging"]> ∅;
     openapi_schema :=
       Some {| info_title := "SERVICE_NAME"; info_version := "0.1.0";
               paths := ["/"; "/health"] |} |}.

(** * Properties *)

(** ** The handlers *)

Lemma root_eq (w : World) :
  root w =
    (Return [("service", "SERVICE_NAME"); ("status", "running");
             ("environment",
              from_option id "production" (environ w !! "ENVIRONMENT"))],
     w).
Proof. reflexivity. Qed.

Lemma health_eq (w : World) :
  health w = (Return [("status", "healthy")], w).
Proof. reflexivity. Qed.

Lemma root_environment_field (w : World) :
  exists body,
    (root w).1 = Return body /\
    dict_get "environment" body =
      Some (from_option id "production" (environ w !! "ENVIRONMENT")).
Proof. eexists. split; [apply (f_equal fst (root_eq w)) | reflexivity]. Qed.








(** ** Runs *)

Lemma run_app (before after : list event) (w : World) :
  run (before ++ after) w =
    ((run before w).1 ++ (run after (run before w).2).1,
     (run after (run before w).2).2).
Proof.
  revert w. induction before as [| e before IH]; intros w.
  - simpl. destruct (run after w); reflexivity.
  - destruct e as [f | handler]; simpl.
    + apply IH.
    + destruct (handler w) as [o w'].
      rewrite IH.
      destruct (run before w') as [outcomes w''].
      reflexivity.
Qed.

Lemma run_await (handler : M dict) (w : World) :
  run [Await handler] w = ([(handler w).1], (handler w).2).
Proof. simpl. destruct (handler w); reflexivity. Qed.

(** X6. Whatever happened before a call of [root] (earlier calls, changes
    of [os.environ]), the [environment] field of the body [root] returns is
    the value bound to [ENVIRONMENT] in [os.environ] at the time of that
    call, encodable or not, and it is [production] when no value is bound
    then. *)
Theorem root_reads_environment_at_request
    (before : list event) (startup : World) :
  let now := (run before startup).2 in
  exists body,
    last (run (before ++ [Await root]) startup).1 = Some (Return body) /\
    match environ now !! "ENVIRONMENT" with
    | Some value => dict_get "environment" body = Some value
    | None => dict_get "environment" body = Some "production"
    end.
Proof.
  intros now.
  destruct (root_environment_field now) as (body & Hbody & Hfield).
  exists body. split.
  - rewrite run_app, run_await. cbn [fst snd].
    rewrite last_snoc. f_equal. exact Hbody.
  - rewrite Hfield. destruct (environ now !! "ENVIRONMENT"); reflexivity.
Qed.

(** A run in which the variable is unset at start-up, then bound, then
    rebound, then unbound again: each request shows the binding of its own
    moment. *)
Example root_follows_environment_changes :
  (run [Await root;
        EnvironChange (insert "ENVIRONMENT" "staging");
        Await root;
        EnvironChange (insert "ENVIRONMENT" "dev");
        Await root;
        EnvironChange (delete "ENVIRONMENT");
        Await root] unset_world).1
  = [Return [("service", "SERVICE_NAME"); ("status", "running");
             ("environment", "production")];
     Return [("service", "SERVICE_NAME"); ("status", "running");
             ("environment", "staging")];
     Return [("service", "SERVICE_NAME"); ("status", "running");
             ("environment", "dev")];
     Return [("service", "SERVICE_NAME"); ("status", "running");
             ("environment", "production")]].
Proof. vm_compute. reflexivity. Qed.

(** ** Effects, totality, determinism *)

(** C7. Neither handler changes the state of the process: [os.environ] and
    the application's cached document are after the call what they were
    before it. *)
Theorem handlers_leave_state_unchanged (w : World) :
  (root w).2 = w /\ (health w).2 = w.
Proof. rewrite root_eq, health_eq. split; reflexivity. Qed.

(** The state is not one that nothing could change: the first request for
    the OpenAPI document stores that document in the application. *)
Example openapi_request_changes_state :
  (fastapi.call app "/openapi.json" staging_world).2 = documented_world /\
  documented_world <> staging_world.
Proof. split; [reflexivity | discriminate]. Qed.

(** C8. In every state of the process each handler returns a body; neither
    can raise. *)
Theorem handlers_total (w : World) :
  (exists body, (root w).1 = Return body) /\
  (exists body, (health w).1 = Return body).
Proof.
  rewrite root_eq, health_eq. split; eexists; reflexivity.
Qed.

(** The bodies depend on the state through one lookup only. *)
Lemma root_depends_on_environment_variable_only (w1 w2 : World) :
  environ w1 !! "ENVIRONMENT" = environ w2 !! "ENVIRONMENT" ->
  (root w1).1 = (root w2).1.
Proof. intros H. rewrite !root_eq. simpl. rewrite H. reflexivity. Qed.

(** C10. Two calls of [root] in states with the same [os.environ] return the
    same body, and two calls of [health] return the same body in any two
    states whatever. *)
Theorem handlers_deterministic (w1 w2 w3 w4 : World)
    (Henviron : environ w1 = environ w2) :
  (root w1).1 = (root w2).1 /\ (health w3).1 = (health w4).1.
Proof.
  split.
  - apply root_depends_on_environment_variable_only.
    rewrite Henviron. reflexivity.
  - rewrite !health_eq. reflexivity.
Qed.

Lemma handlers_deterministic_witness :
  environ staging_world = environ documented_world /\
  (root staging_world).1 = (root documented_world).1 /\
  (health unset_world).1 = (health escaped_byte_world).1.
Proof.
  split; [reflexivity |].
  apply (handlers_deterministic
           staging_world documented_world unset_world escaped_byte_world).
  reflexivity.
Defined.

(** ** The application under the framework *)

(** The routes of [app], in the order the router tries them: the four that
    the constructor installs, then the two of the module. *)
Lemma app_route_paths :
  fastapi.route_path <$> fastapi.routes app =
    ["/openapi.json"; "/docs"; "/docs/oauth2-redirect"; "/redoc";
     "/"; "/health"].
Proof. reflexivity. Qed.

(** Both path operations are registered with the decorator's defaults. *)
Lemma app_path_operations :
  drop 4 (fastapi.routes app) =
    [fastapi.APIRoute "/" root None; fastapi.APIRoute "/health" health None].
Proof. reflexivity. Qed.

Lemma Router_app_root (w : World) :
  fastapi.Router_app app "/" w =
    fastapi.JSONResponse
      (fastapi.JsonObject
         [("service", "SERVICE_NAME"); ("status", "running");
          ("environment",
           from_option id "production" (environ w !! "ENVIRONMENT"))])
      200 w.
Proof. reflexivity. Qed.

Lemma call_health (w : World) :
  fastapi.call app "/health" w =
    ({| fastapi.status_code := 200;
        fastapi.media_type := Some "application/json";
        fastapi.location := None;
        fastapi.content := fastapi.JsonObject [("status", "healthy")] |},
     w).
Proof. reflexivity. Qed.

(** What a GET request for [/] is answered with: the body of [root] as
    JSON when the value of the variable can be encoded, the server-error
    response when it cannot. *)
Lemma call_root (w : World) :
  fastapi.call app "/" w =
    let environment :=
      from_option id "production" (environ w !! "ENVIRONMENT") in
    (if utf8_encodable environment
     then {| fastapi.status_code := 200;
             fastapi.media_type := Some "application/json";
             fastapi.location := None;
             fastapi.content :=
               fastapi.JsonObject
                 [("service", "SERVICE_NAME"); ("status", "running");
                  ("environment", environment)] |}
     else fastapi.exception_response UnicodeEncodeError,
     w).
Proof.
  unfold fastapi.call. rewrite Router_app_root.
  unfold fastapi.JSONResponse, fastapi.Response_init.
  cbn [fastapi.renderable fastapi.dict_encodable forallb fst snd].
  change (utf8_encodable "service") with true.
  change (utf8_encodable "SERVICE_NAME") with true.
  change (utf8_encodable "status") with true.
  change (utf8_encodable "running") with true.
  change (utf8_encodable "environment") with true.
  cbn [andb].
  destruct (utf8_encodable _); reflexivity.
Qed.

(** C4, as stated, fails: with [ENVIRONMENT] bound to the text of an
    undecodable byte, [root] returns its body as always, the body cannot be
    rendered, and the request for [/] is answered with status 500 and a
    plain-text content type. *)
Lemma get_root_unencodable_environment_500 :
  let r := (fastapi.call app "/" escaped_byte_world).1 in
  (root escaped_byte_world).1 =
    Return [("service", "SERVICE_NAME"); ("status", "running");
            ("environment", Str [0xDCFF])] /\
  fastapi.status_code r = 500 /\
  fastapi.status_code r <> 200 /\
  fastapi.content_type r <> Some "application/json".
Proof. vm_compute. repeat split; discriminate. Qed.

(** C4, amended.  A GET request for [/health] is answered with status 200
    and content type [application/json] in every state; so is a GET request
    for [/] in every state where the text [root] reads (the value of
    [ENVIRONMENT], or [production] when it is unset) can be encoded in
    UTF-8. *)
Theorem endpoints_respond_200_json (w w' : World)
    (Hencodable :
       utf8_encodable
         (from_option id "production" (environ w !! "ENVIRONMENT")) = true) :
  let r := (fastapi.call app "/" w).1 in
  let h := (fastapi.call app "/health" w').1 in
  (fastapi.status_code r = 200 /\
   fastapi.content_type r = Some "application/json") /\
  (fastapi.status_code h = 200 /\
   fastapi.content_type h = Some "application/json").
Proof.
  intros r h. subst r h.
  rewrite call_root, call_health. cbn zeta. rewrite Hencodable.
  repeat split; reflexivity.
Qed.

Lemma endpoints_respond_200_json_witness :
  utf8_encodable
    (from_option id "production"
       (environ staging_world !! "ENVIRONMENT")) = true /\
  (fastapi.status_code (fastapi.call app "/" staging_world).1 = 200 /\
   fastapi.content_type (fastapi.call app "/" staging_world).1 =
     Some "application/json") /\
  (fastapi.status_code (fastapi.call app "/health" escaped_byte_world).1
     = 200 /\
   fastapi.content_type (fastapi.call app "/health" escaped_byte_world).1 =
     Some "application/json").
Proof.
  split; [reflexivity |].
  apply (endpoints_respond_200_json staging_world escaped_byte_world).
  reflexivity.
Defined.

(** Under the framework too, requests for the two paths change nothing. *)
Lemma requests_leave_state_unchanged (w : World) :
  (fastapi.call app "/" w).2 = w /\ (fastapi.call app "/health" w).2 = w.
Proof. rewrite call_root, call_health. split; reflexivity. Qed.

(** Conversely, a request for [/] is answered 200 only in those states. *)
Lemma get_root_200_iff_encodable (w : World) :
  fastapi.status_code (fastapi.call app "/" w).1 = 200 <->
  utf8_encodable
    (from_option id "production" (environ w !! "ENVIRONMENT")) = true.
Proof.
  rewrite call_root. cbn zeta.
  destruct (utf8_encodable _); simpl; split; (reflexivity || discriminate).
Qed.

(** ** The environment field of the response *)

Lemma serve_app (before after : list request_event) (w : World) :
  serve (before ++ after) w =
    ((serve before w).1 ++ (serve after (serve before w).2).1,
     (serve after (serve before w).2).2).
Proof.
  revert w. induction before as [| e before IH]; intros w.
  - simpl. destruct (serve after w); reflexivity.
  - destruct e as [f | path]; simpl.
    + apply IH.
    + destruct (fastapi.call app path w) as [r w'].
      rewrite IH.
      destruct (serve before w') as [responses w''].
      reflexivity.
Qed.

Lemma serve_get (path : str) (w : World) :
  serve [Get path] w =
    ([(fastapi.call app path w).1], (fastapi.call app path w).2).
Proof. simpl. destruct (fastapi.call app path w); reflexivity. Qed.

(** C5, as stated, fails: with [ENVIRONMENT] bound to the text of an
    undecodable byte, [root] reads that value, but the response to the GET
    request for [/] is the server-error response and has no [environment]
    field. *)
Lemma get_root_unencodable_environment_no_field :
  environ escaped_byte_world !! "ENVIRONMENT" = Some (Str [0xDCFF]) /\
  (exists body,
     (root escaped_byte_world).1 = Return body /\
     dict_get "environment" body = Some (Str [0xDCFF])) /\
  response_field "environment"
    (fastapi.call app "/" escaped_byte_world).1 = None /\
  response_field "environment"
    (fastapi.call app "/" escaped_byte_world).1 <> Some (Str [0xDCFF]).
Proof.
  split; [reflexivity |]. split; [eexists; split; reflexivity |].
  split; [reflexivity | discriminate].
Qed.

(** C5, amended.  Whatever happened before a GET request for [/] (earlier
    requests for any path, changes of [os.environ]), if at the time the
    request is handled [ENVIRONMENT] is unset or bound to text that UTF-8
    can encode, the [environment] field of the response is the value bound
    at that time, and [production] when none is bound. *)
Theorem get_root_environment_at_request
    (before : list request_event) (startup : World)
    (Hencodable :
       utf8_encodable
         (from_option id "production"
            (environ (serve before startup).2 !! "ENVIRONMENT")) = true) :
  exists r,
    last (serve (before ++ [Get "/"]) startup).1 = Some r /\
    match environ (serve before startup).2 !! "ENVIRONMENT" with
    | Some value => response_field "environment" r = Some value
    | None => response_field "environment" r = Some "production"
    end.
Proof.
  eexists. split.
  - rewrite serve_app, serve_get. cbn [fst snd].
    rewrite last_snoc. reflexivity.
  - rewrite call_root. cbn [fst]. cbv zeta. rewrite Hencodable.
    destruct (environ (serve before startup).2 !! "ENVIRONMENT");
      reflexivity.
Qed.

Lemma get_root_environment_at_request_witness :
  utf8_encodable
    (from_option id "production"
       (environ
          (serve [Get "/"; EnvironChanged (insert "ENVIRONMENT" "staging");
                  Get "/openapi.json"] unset_world).2
        !! "ENVIRONMENT")) = true /\
  exists r,
    last (serve ([Get "/"; EnvironChanged (insert "ENVIRONMENT" "staging");
                  Get "/openapi.json"] ++ [Get "/"]) unset_world).1
      = Some r /\
    match
      environ
        (serve [Get "/"; EnvironChanged (insert "ENVIRONMENT" "staging");
                Get "/openapi.json"] unset_world).2
      !! "ENVIRONMENT"
    with
    | Some value => response_field "environment" r = Some value
    | None => response_field "environment" r = Some "production"
    end.
Proof.
  split; [reflexivity |].
  apply (get_root_environment_at_request
           [Get "/"; EnvironChanged (insert "ENVIRONMENT" "staging");
            Get "/openapi.json"] unset_world).
  reflexivity.
Defined.

(** The responses of a run follow the variable from request to request. *)
Example get_root_follows_environment_changes :
  response_field "environment" <$>
    (serve [Get "/";
            EnvironChanged (insert "ENVIRONMENT" "staging");
            Get "/";
            EnvironChanged (insert "ENVIRONMENT" (Str [0xDCFF]));
            Get "/";
            EnvironChanged (delete "ENVIRONMENT");
            Get "/"] unset_world).1
  = [Some "production"; Some "staging"; None; Some "production"].
Proof. vm_compute. reflexivity. Qed.

(** ** Paths without a route *)

Lemma find_None_existsb {A : Type} (f : A -> bool) (l : list A) :
  existsb f l = false -> find f l = None.
Proof.
  induction l as [| a l IH]; simpl; [reflexivity |].
  destruct (f a); simpl; [discriminate | exact IH].
Qed.

(** The router on a path that no route matches, for any application. *)
Lemma Router_app_unmatched (self : fastapi.Application) (path : str)
    (w : World) :
  fastapi.matches_some_route self path = false ->
  fastapi.Router_app self path w =
    (if fastapi.redirect_slashes self && negb (bool_decide (path = "/"))
        && fastapi.matches_some_route self (fastapi.redirect_path path)
     then Return (fastapi.RedirectResponse
                    (fastapi.URL_of_scope (fastapi.redirect_path path)))
     else Raise (HTTPException 404 "Not Found"),
     w).
Proof.
  intros H. unfold fastapi.Router_app.
  rewrite (find_None_existsb _ _ H).
  destruct (_ && _); reflexivity.
Qed.

(** The paths that a route of [app] matches. *)
Lemma app_matches_iff (path : str) :
  fastapi.matches_some_route app path = true <->
  exists p,
    p ∈ ["/openapi.json"; "/docs"; "/docs/oauth2-redirect"; "/redoc";
         "/"; "/health"] /\
    (path = p \/ path = str_add p fastapi.LF).
Proof.
  rewrite <- app_route_paths. unfold fastapi.matches_some_route.
  rewrite existsb_exists. split.
  - intros (r & Hin & Hm). exists (fastapi.route_path r). split.
    + apply list_elem_of_fmap_2, list_elem_of_In, Hin.
    + unfold fastapi.path_regex_match in Hm.
      apply orb_true_iff in Hm as [Hm | Hm];
        apply bool_decide_eq_true in Hm; auto.
  - intros (p & Hin & Hm).
    apply list_elem_of_fmap in Hin as (r & -> & Hin).
    exists r. split; [apply list_elem_of_In, Hin |].
    unfold fastapi.path_regex_match. apply orb_true_iff.
    destruct Hm as [Hm | Hm]; [left | right];
      apply bool_decide_eq_true; exact Hm.
Qed.

(** C6, as stated, fails: [/docs] is neither [/] nor [/health], and a GET
    request for it is answered with status 200, by the documentation page
    that the constructor [FastAPI(title=...)] installs. *)
Lemma get_docs_200 :
  "/docs" <> "/" /\ "/docs" <> "/health" /\
  fastapi.status_code (fastapi.call app "/docs" unset_world).1 = 200 /\
  fastapi.status_code (fastapi.call app "/docs" unset_world).1 <> 404.
Proof. vm_compute. repeat split; discriminate. Qed.

(** C6, amended.  A GET request for a path that none of the routes of [app]
    matches (the two of the module and the four of the constructor:
    [/openapi.json], [/docs], [/docs/oauth2-redirect], [/redoc]) is never
    answered with status 200 and changes nothing: it gets the framework's
    not-found response, status 404 with the JSON body
    [{"detail": "Not Found"}], unless the path with its trailing slash
    toggled is matched by a route, when it gets a 307 redirect to that
    path. *)
Theorem unmatched_path_not_found (path : str) (w : World)
    (Hunmatched : fastapi.matches_some_route app path = false) :
  let r := (fastapi.call app path w).1 in
  fastapi.status_code r <> 200 /\
  (fastapi.call app path w).2 = w /\
  (if fastapi.matches_some_route app (fastapi.redirect_path path)
   then r = fastapi.RedirectResponse
              (fastapi.URL_of_scope (fastapi.redirect_path path))
   else r = {| fastapi.status_code := 404;
               fastapi.media_type := Some "application/json";
               fastapi.location := None;
               fastapi.content :=
                 fastapi.JsonObject [("detail", "Not Found")] |}).
Proof.
  intros r. subst r. unfold fastapi.call.
  rewrite (Router_app_unmatched app path w Hunmatched).
  assert (Hne : bool_decide (path = "/") = false).
  { apply bool_decide_eq_false. intros ->.
    vm_compute in Hunmatched. discriminate. }
  rewrite Hne. change (fastapi.redirect_slashes app) with true.
  cbn [andb negb].
  destruct (fastapi.matches_some_route app (fastapi.redirect_path path));
    cbn; repeat split; discriminate.
Qed.

Lemma unmatched_path_not_found_witness :
  fastapi.matches_some_route app "/metrics" = false /\
  fastapi.status_code (fastapi.call app "/metrics" staging_world).1 <> 200 /\
  (fastapi.call app "/metrics" staging_world).2 = staging_world /\
  (fastapi.call app "/metrics" staging_world).1 =
    {| fastapi.status_code := 404;
       fastapi.media_type := Some "application/json";
       fastapi.location := None;
       fastapi.content := fastapi.JsonObject [("detail", "Not Found")] |}.
Proof.
  split; [reflexivity |].
  apply (unmatched_path_not_found "/metrics" staging_world).
  reflexivity.
Defined.

(** The redirect branch: [/health/] has no route, [/health] has one. *)
Example get_health_slash_redirects :
  (fastapi.call app "/health/" unset_world).1 =
    fastapi.RedirectResponse (fastapi.URL_of_scope "/health").
Proof. reflexivity. Qed.

(** * Further properties of the module *)

(** X1. [root] reads no variable but [ENVIRONMENT]: binding or unbinding any
    other name in [os.environ] leaves the body it returns as it was. *)
Theorem root_ignores_other_variables (w : World) (name value : str)
    (Hother : name <> "ENVIRONMENT") :
  (root {| environ := <[name := value]> (environ w);
           openapi_schema := openapi_schema w |}).1 = (root w).1 /\
  (root {| environ := delete name (environ w);
           openapi_schema := openapi_schema w |}).1 = (root w).1.
Proof.
  split; apply root_depends_on_environment_variable_only; cbn [environ].
  - apply lookup_insert_ne. exact Hother.
  - apply lookup_delete_ne. exact Hother.
Qed.

Lemma root_ignores_other_variables_witness :
  "DATABASE_URL" <> "ENVIRONMENT" /\
  (root {| environ := <["DATABASE_URL" := "secret"]> (environ staging_world);
           openapi_schema := openapi_schema staging_world |}).1
    = (root staging_world).1 /\
  (root {| environ := delete "DATABASE_URL" (environ staging_world);
           openapi_schema := openapi_schema staging_world |}).1
    = (root staging_world).1.
Proof.
  split; [discriminate |].
  apply (root_ignores_other_variables staging_world "DATABASE_URL" "secret").
  discriminate.
Defined.

(** X2. Over a whole run, requests leave no trace: the state at the end is
    the state at the start with the environment changes of the run applied,
    whatever requests for [root] and [health] came in between; every one of
    those requests returned a body, and there is one outcome per request. *)
Theorem run_state_is_environment_changes_only
    (events : list event) (w : World)
    (Hhandlers : awaits_module_handlers events) :
  (run events w).2 =
    {| environ := environ_after events (environ w);
       openapi_schema := openapi_schema w |} /\
  Forall (fun o => exists body, o = Return body) (run events w).1 /\
  length (run events w).1 =
    length (List.filter (fun e => match e with
                             | Await _ => true
                             | EnvironChange _ => false
                             end) events).
Proof.
  revert w. induction Hhandlers as [| e events He _ IH]; intros w.
  - destruct w. repeat split. constructor.
  - destruct e as [f | handler].
    + destruct (IH {| environ := f (environ w);
                      openapi_schema := openapi_schema w |})
        as (Hstate & Hout & Hlen).
      cbn [run environ_after fold_left List.filter].
      repeat split; assumption.
    + assert (Hh : exists body, handler w = (Return body, w)).
      { destruct He as [-> | ->]; eexists;
          [apply root_eq | apply health_eq]. }
      destruct Hh as (body & Hh).
      destruct (IH w) as (Hstate & Hout & Hlen).
      cbn [run environ_after fold_left List.filter]. rewrite Hh.
      destruct (run events w) as [outcomes w'].
      cbn [fst snd length] in *.
      repeat split; [assumption | | congruence].
      constructor; [eexists; reflexivity | assumption].
Qed.

Lemma run_state_is_environment_changes_only_witness :
  awaits_module_handlers
    [Await root; EnvironChange (insert "ENVIRONMENT" "staging");
     Await health; Await root] /\
  (run [Await root; EnvironChange (insert "ENVIRONMENT" "staging");
        Await health; Await root] unset_world).2 = staging_world /\
  Forall (fun o => exists body, o = Return body)
    (run [Await root; EnvironChange (insert "ENVIRONMENT" "staging");
          Await health; Await root] unset_world).1 /\
  length
    (run [Await root; EnvironChange (insert "ENVIRONMENT" "staging");
          Await health; Await root] unset_world).1 = 3%nat.
Proof.
  assert (H : awaits_module_handlers
                [Await root; EnvironChange (insert "ENVIRONMENT" "staging");
                 Await health; Await root]).
  { repeat (constructor;
            [first [exact I | left; reflexivity | right; reflexivity] |]).
    constructor. }
  split; [exact H |].
  exact (run_state_is_environment_changes_only _ unset_world H).
Defined.

(** X3. The body of [root] does not tell an unset [ENVIRONMENT] from one
    bound to the text [production]. *)
Theorem root_unset_like_production (w1 w2 : World)
    (Hunset : environ w1 !! "ENVIRONMENT" = None)
    (Hbound : environ w2 !! "ENVIRONMENT" = Some "production") :
  (root w1).1 = (root w2).1.
Proof. rewrite !root_eq. cbn [fst]. rewrite Hunset, Hbound. reflexivity. Qed.

Lemma root_unset_like_production_witness :
  environ unset_world !! "ENVIRONMENT" = None /\
  environ {| environ := <["ENVIRONMENT" := "production"]> ∅;
             openapi_schema := openapi_schema documented_world |}
    !! "ENVIRONMENT" = Some "production" /\
  (root unset_world).1 =
    (root {| environ := <["ENVIRONMENT" := "production"]> ∅;
             openapi_schema := openapi_schema documented_world |}).1.
Proof.
  split; [reflexivity |]. split; [reflexivity |].
  apply (root_unset_like_production unset_world
           {| environ := <["ENVIRONMENT" := "production"]> ∅;
              openapi_schema := openapi_schema documented_world |});
    reflexivity.
Defined.

(** X4. Binding and reading back: in any state, once [ENVIRONMENT] is bound
    to a text the next call of [root] returns that very text in the
    [environment] field, and once it is unbound the next call returns
    [production]; what the variable held before does not matter. *)
Theorem root_after_environment_change (w : World) (value : str) :
  (run [EnvironChange (insert "ENVIRONMENT" value); Await root] w).1 =
    [Return [("service", "SERVICE_NAME"); ("status", "running");
             ("environment", value)]] /\
  (run [EnvironChange (delete "ENVIRONMENT"); Await root] w).1 =
    [Return [("service", "SERVICE_NAME"); ("status", "running");
             ("environment", "production")]].
Proof.
  cbn [run]. rewrite !root_eq. cbn [environ fst].
  rewrite lookup_insert_eq, lookup_delete_eq. split; reflexivity.
Qed.

(** X5. The decorators bind [/] to [root] and [/health] to [health], and the
    routes the constructor put in front of them shadow neither: the answer
    to a GET request for either path carries, as its JSON object, exactly the
    dictionary the handler returned in that state, fields in the same
    order, unless that dictionary cannot be rendered, when the answer is
    the server-error response.  It is never a redirect, a not-found
    response or a documentation page. *)
Theorem requests_answered_by_handlers (w : World) :
  (exists body,
     (root w).1 = Return body /\
     (fastapi.call app "/" w).1 =
       if fastapi.dict_encodable body
       then {| fastapi.status_code := 200;
               fastapi.media_type := Some "application/json";
               fastapi.location := None;
               fastapi.content := fastapi.JsonObject body |}
       else fastapi.exception_response UnicodeEncodeError) /\
  (exists body,
     (health w).1 = Return body /\
     (fastapi.call app "/health" w).1 =
       {| fastapi.status_code := 200;
          fastapi.media_type := Some "application/json";
          fastapi.location := None;
          fastapi.content := fastapi.JsonObject body |}).
Proof.
  split; eexists; (split; [reflexivity |]).
  - rewrite call_root. cbn [fst]. cbv zeta.
    change (fastapi.dict_encodable _) with
      (utf8_encodable
         (from_option id "production" (environ w !! "ENVIRONMENT")) && true).
    rewrite andb_true_r. reflexivity.
  - rewrite call_health. reflexivity.
Qed.
